(** * AgentChat user guide: the quickstart and the agents tutorial

    A shallow embedding of the Python code cells of
      - [agentchat-user-guide/quickstart.ipynb]
      - [agentchat-user-guide/tutorial/agents.ipynb]
    and the properties their specification states about them.

    Python [str] is embedded as [string]; objects built by constructor
    calls are embedded as the class they name together with the keyword
    arguments they are given; code that reads the console runs in a small
    state-and-exception monad over the console. *)

From Stdlib Require Import String Ascii List Bool Arith Lia.
Import ListNotations.
Local Open Scope string_scope.

(** ** Python strings *)

Module Str.

(** [s.startswith(p)] *)
Fixpoint startswith (p s : string) : bool :=
  match p, s with
  | EmptyString, _ => true
  | String a p', String b s' => Ascii.eqb a b && startswith p' s'
  | String _ _, EmptyString => false
  end.

(** [needle in haystack]: the needle occurs at some offset of the
    haystack, compared character by character. *)
Fixpoint contains (needle haystack : string) : bool :=
  startswith needle haystack
  || match haystack with
     | EmptyString => false
     | String _ rest => contains needle rest
     end.

(** [s.endswith(suffix)] *)
Fixpoint endswith (suffix s : string) : bool :=
  String.eqb suffix s
  || match s with
     | EmptyString => false
     | String _ rest => endswith suffix rest
     end.

(** ASCII upper-casing of one character ([a]..[z] are 97..122). *)
Definition upper_ascii (c : ascii) : ascii :=
  let n := nat_of_ascii c in
  if ((97 <=? n)%nat && (n <=? 122)%nat)%bool
  then ascii_of_nat (n - 32) else c.

(** [s.upper()] on ASCII text. *)
Fixpoint upper (s : string) : string :=
  match s with
  | EmptyString => EmptyString
  | String c rest => String (upper_ascii c) (upper rest)
  end.

(** The needle occurs in the haystack when letter case is ignored. *)
Definition contains_ignoring_case (needle haystack : string) : bool :=
  contains (upper needle) (upper haystack).

(** The haystack splits around an occurrence of the needle. *)
Definition occurs (needle haystack : string) : Prop :=
  exists pre post, haystack = pre ++ needle ++ post.

End Str.

(** ** Python values

    The message and response classes are declared in the AgentChat
    library, not in the notebooks; a constructor call
    [C(k1=v1, ..., kn=vn)] is embedded as the object it builds: the class
    [C] and the keyword arguments in call order. *)

Module Py.

(** Modelled from the spec: the classes [TextMessage], [StopMessage] and
    [Response], which the notebooks instantiate by keyword and the
    AgentChat library declares: a chat message, the termination signal
    that is a distinguished kind of message, and the response wrapper. *)
Inductive PyClass : Type :=
| TextMessage
| StopMessage
| Response.

#[warning="-register-all"]
Inductive PyValue : Type :=
| PyNone
| PyStr (s : string)
| PyObj (cls : PyClass) (kwargs : list (string * PyValue)).

Fixpoint lookup (key : string) (kwargs : list (string * PyValue))
  : option PyValue :=
  match kwargs with
  | [] => None
  | (k, v) :: rest => if String.eqb key k then Some v else lookup key rest
  end.

(** [obj.attr]: [None] when [obj] has no such attribute. *)
Definition getattr (obj : PyValue) (attr : string) : option PyValue :=
  match obj with
  | PyObj _ kwargs => lookup attr kwargs
  | _ => None
  end.

(** [type(obj)] for instances of the classes above. *)
Definition type_of (obj : PyValue) : option PyClass :=
  match obj with
  | PyObj cls _ => Some cls
  | _ => None
  end.

(** [isinstance(v, str)] *)
Definition is_str (v : PyValue) : bool :=
  match v with
  | PyStr _ => true
  | _ => false
  end.

(** [obj.attr] is present and holds a [str]. *)
Definition has_str_attr (obj : PyValue) (attr : string) : bool :=
  match getattr obj attr with
  | Some v => is_str v
  | None => false
  end.

(** A chat message carries its text and its sender's label: both
    [content] and [source] are present, and both are [str]. *)
Definition has_content_and_source (message : PyValue) : bool :=
  has_str_attr message "content" && has_str_attr message "source".

End Py.

(** ** The console: [input] and the exceptions it raises *)

Module IO.

(** Lines waiting on standard input, and what was written to standard
    output, oldest first. *)
Record Console : Type := {
  stdin : list string;
  stdout : list string
}.

Inductive PyException : Type :=
| EOFError.

Inductive Outcome (A : Type) : Type :=
| Returns (a : A)
| Raises (e : PyException).
Arguments Returns {A} a.
Arguments Raises {A} e.

Definition IO (A : Type) : Type := Console -> Outcome A * Console.

Definition ret {A : Type} (a : A) : IO A := fun c => (Returns a, c).

Definition bind {A B : Type} (m : IO A) (k : A -> IO B) : IO B :=
  fun c =>
    match m c with
    | (Returns a, c') => k a c'
    | (Raises e, c') => (Raises e, c')
    end.

Definition write (text : string) : IO unit :=
  fun c => (Returns tt, {| stdin := stdin c; stdout := stdout c ++ [text] |}).

Definition readline : IO string :=
  fun c =>
    match stdin c with
    | [] => (Raises EOFError, c)
    | line :: rest => (Returns line, {| stdin := rest; stdout := stdout c |})
    end.

(** [input(prompt)]: writes the prompt, then reads one line without its
    newline; [EOFError] when standard input is exhausted. *)
Definition input (prompt : string) : IO string :=
  bind (write prompt) (fun _ => readline).

(** [await asyncio.get_event_loop().run_in_executor(executor, func, arg)]:
    the call [func(arg)] runs on a worker thread of the executor and the
    awaiting coroutine gets its result, or its exception. *)
Definition run_in_executor {Executor A B : Type}
    (executor : Executor) (func : A -> IO B) (arg : A) : IO B :=
  func arg.

End IO.

Declare Scope io_scope.
Delimit Scope io_scope with io.
Notation "x <- m ;; k" := (IO.bind m (fun x => k))
  (at level 61, m at next level, right associativity) : io_scope.

(** ** tutorial/agents.ipynb *)

Module AgentsTutorial.
Import Py IO.

(** Cell 2. *)
Definition get_weather (city : string) : string :=
  "The weather in " ++ city ++ " is 72 degrees and Sunny.".

(** Modelled from the spec: [BaseChatAgent], declared in the AgentChat
    library: an agent is constructed with a name and a description, which
    [super().__init__(name, description)] stores and the [name] and
    [description] properties give back. *)
Record BaseChatAgent : Type := {
  name : string;
  description : string
}.

(** Cell 5, [UserProxyAgent.__init__]. *)
Definition UserProxyAgent (name : string) : BaseChatAgent :=
  {| name := name; description := "A human user." |}.

(** Cell 5, [UserProxyAgent.produced_message_types]. *)
Definition produced_message_types (self : BaseChatAgent) : list PyClass :=
  [TextMessage; StopMessage].

(** Cell 5, [UserProxyAgent.on_messages].  The class of the
    cancellation token is declared in the core library; the method is
    embedded for any type of tokens. *)
Definition on_messages {CancellationToken : Type}
    (self : BaseChatAgent) (messages : list PyValue)
    (cancellation_token : CancellationToken) : IO PyValue :=
  (user_input <- run_in_executor PyNone input "Enter your response: " ;;
   if Str.contains "TERMINATE" user_input then
     ret (PyObj Response
            [("chat_message",
              PyObj StopMessage
                [("content", PyStr "User has terminated the conversation.");
                 ("source", PyStr (name self))])])
   else
     ret (PyObj Response
            [("chat_message",
              PyObj TextMessage
                [("content", PyStr user_input);
                 ("source", PyStr (name self))])]))%io.

(** The [messages=] argument of cells 3 and 5. *)
Definition weather_question : list PyValue :=
  [PyObj TextMessage
     [("content", PyStr "What is the weather right now in France?");
      ("source", PyStr "user")]].

Definition newline : string := String "010"%char "".

(** The [messages=] argument of cell 4. *)
Definition code_question : list PyValue :=
  [PyObj TextMessage
     [("content",
       PyStr ("Here is some code " ++ newline
              ++ " ```python print('Hello world') " ++ newline ++ "``` "));
      ("source", PyStr "user")]].

(** Cell 5, the agent the notebook builds. *)
Definition user_proxy_agent : BaseChatAgent :=
  UserProxyAgent "user_proxy_agent".

(** The console once the prompt is shown and one line is taken. *)
Definition answered (pending out : list string) : Console :=
  {| stdin := pending; stdout := out ++ ["Enter your response: "] |}.

(** The shape of the two results of [on_messages]. *)
Definition text_response (content source : string) : PyValue :=
  PyObj Response
    [("chat_message",
      PyObj TextMessage
        [("content", PyStr content); ("source", PyStr source)])].

Definition stop_response (content source : string) : PyValue :=
  PyObj Response
    [("chat_message",
      PyObj StopMessage
        [("content", PyStr content); ("source", PyStr source)])].

End AgentsTutorial.

(** ** quickstart.ipynb *)

Module Quickstart.
Import Py.

(** The tool of the quickstart cell. *)
Definition get_weather (city : string) : string :=
  "The weather in " ++ city ++ " is 73 degrees and Sunny.".

(** Modelled from the spec: [AssistantAgent], whose class is declared in
    the AgentChat library.  An agent is a named entity that, given a
    sequence of prior messages, produces exactly one response
    message. *)
Record Agent : Type := {
  agent_name : string;
  respond : list PyValue -> PyValue
}.

(** Modelled from the spec: the termination conditions of the AgentChat
    library.  A termination condition is a predicate over the
    conversation so far that decides whether the team should stop
    running. *)
Definition TerminationCondition : Type := list PyValue -> bool.

(** Modelled from the spec: [MaxMessageTermination], declared in the
    AgentChat library: a maximum message count. *)
Definition MaxMessageTermination (max_messages : nat)
  : TerminationCondition :=
  fun conversation => (max_messages <=? List.length conversation)%nat.

(** Modelled from the spec: the teams of the AgentChat library.  A team
    is a small group of agents plus a rule for whose turn is next and
    when to stop. *)
Record Team : Type := {
  participants : list Agent;
  next_speaker : nat -> nat;
  termination_condition : TerminationCondition
}.

(** Modelled from the spec: [RoundRobinGroupChat], declared in the
    AgentChat library: the agents take turns in the order given, the
    first again after the last. *)
Definition RoundRobinGroupChat (participants : list Agent)
    (termination_condition : TerminationCondition) : Team :=
  {| participants := participants;
     next_speaker := fun turn => turn mod List.length participants;
     termination_condition := termination_condition |}.

(** Modelled from the spec: the state of a run, which the library keeps:
    the transcript so far and the number of turns taken. *)
Record RunState : Type := {
  transcript : list PyValue;
  turn : nat
}.

(** Modelled from the spec: [TaskResult], declared in the AgentChat
    library: the transcript of all exchanged messages. *)
Record TaskResult : Type := {
  messages : list PyValue
}.

(** Modelled from the spec: one round of the team's [run], which is
    library code: stop when the termination condition holds of the
    conversation so far; otherwise the agent whose turn it is answers
    the transcript and its one message is appended. *)
Definition step (team : Team) (st : RunState) : option RunState :=
  if termination_condition team (transcript st) then None
  else
    match nth_error (participants team) (next_speaker team (turn st)) with
    | None => None
    | Some agent =>
        Some {| transcript :=
                  transcript st ++ [respond agent (transcript st)];
                turn := S (turn st) |}
    end.

(** Modelled from the spec: the run starts from the task text
    attributed to "user". *)
Definition start (task : string) : RunState :=
  {| transcript :=
       [PyObj TextMessage
          [("source", PyStr "user"); ("content", PyStr task)]];
     turn := 0 |}.

(** Modelled from the spec: the rounds of [run], library code, one after
    the other until the team stops, [fuel] of them at most. *)
Fixpoint run_loop (fuel : nat) (team : Team) (st : RunState)
  : option TaskResult :=
  match step team st with
  | None => Some {| messages := transcript st |}
  | Some st' =>
      match fuel with
      | 0 => None
      | S fuel' => run_loop fuel' team st'
      end
  end.

(** Modelled from the spec: [team.run(task=...)], library code: the
    transcript of all exchanged messages once the team has stopped;
    [None] when [fuel] rounds were not enough to get there. *)
Definition run (fuel : nat) (team : Team) (task : string)
  : option TaskResult :=
  run_loop fuel team (start task).

(** Modelled from the spec: the successive states of the library's
    [run], over its first [fuel] rounds. *)
Fixpoint run_states (fuel : nat) (team : Team) (st : RunState)
  : list RunState :=
  st ::
  match fuel with
  | 0 => []
  | S fuel' =>
      match step team st with
      | None => []
      | Some st' => run_states fuel' team st'
      end
  end.

(** The team the quickstart cell builds, around any agent. *)
Definition agent_team (weather_agent : Agent) : Team :=
  RoundRobinGroupChat [weather_agent] (MaxMessageTermination 2).

(** The agent of the run recorded in the cell's output, with the answer
    it gave there. *)
Definition recorded_weather_agent : Agent :=
  {| agent_name := "weather_agent";
     respond := fun _ =>
       PyObj TextMessage
         [("source", PyStr "weather_agent");
          ("content",
           PyStr "The weather in New York is 73 degrees and sunny.")] |}.

End Quickstart.

(** * Properties *)

Module StrFacts.
Import Str.

Lemma startswith_app p rest : startswith p (p ++ rest) = true.
Proof.
  induction p as [|a p IH]; simpl; [reflexivity|].
  now rewrite Ascii.eqb_refl, IH.
Qed.

Lemma startswith_inv p : forall s,
  startswith p s = true -> exists rest, s = p ++ rest.
Proof.
  induction p as [|a p IH]; intros s H.
  - exists s. reflexivity.
  - destruct s as [|b s]; simpl in H; [discriminate|].
    apply andb_true_iff in H. destruct H as [Hab Hps].
    apply Ascii.eqb_eq in Hab. subst b.
    destruct (IH _ Hps) as [rest ->].
    exists rest. reflexivity.
Qed.

Lemma contains_app needle pre : forall post,
  contains needle (pre ++ needle ++ post) = true.
Proof.
  induction pre as [|c pre IH]; intros post.
  - simpl append at 1.
    destruct (needle ++ post) eqn:E; simpl;
      rewrite <- E, startswith_app; reflexivity.
  - simpl. rewrite IH. apply orb_true_r.
Qed.

Lemma contains_inv needle : forall haystack,
  contains needle haystack = true -> occurs needle haystack.
Proof.
  induction haystack as [|c rest IH]; simpl; intros H.
  - rewrite orb_false_r in H.
    destruct (startswith_inv _ _ H) as [post E].
    exists "", post. exact E.
  - apply orb_true_iff in H. destruct H as [H|H].
    + destruct (startswith_inv _ _ H) as [post E].
      exists "", post. exact E.
    + destruct (IH H) as (pre & post & ->).
      exists (String c pre), post. reflexivity.
Qed.

(** The substring test decides [occurs]. *)
Lemma contains_iff needle haystack :
  contains needle haystack = true <-> occurs needle haystack.
Proof.
  split.
  - apply contains_inv.
  - intros (pre & post & ->). apply contains_app.
Qed.

Lemma contains_false_iff needle haystack :
  contains needle haystack = false <-> ~ occurs needle haystack.
Proof.
  rewrite <- contains_iff.
  destruct (contains needle haystack); split; intros H;
    try reflexivity; try discriminate; try (intros K; discriminate).
  exfalso. apply H. reflexivity.
Qed.

Lemma endswith_app suffix pre : endswith suffix (pre ++ suffix) = true.
Proof.
  induction pre as [|c pre IH]; cbn [append endswith].
  - destruct suffix; cbn [endswith];
      rewrite String.eqb_refl; reflexivity.
  - rewrite IH. apply orb_true_r.
Qed.

Lemma endswith_inv suffix : forall s,
  endswith suffix s = true -> exists pre, s = pre ++ suffix.
Proof.
  induction s as [|c rest IH]; simpl; intros H.
  - rewrite orb_false_r in H. apply String.eqb_eq in H. subst.
    exists "". reflexivity.
  - apply orb_true_iff in H. destruct H as [H|H].
    + apply String.eqb_eq in H. subst. exists "". reflexivity.
    + destruct (IH H) as [pre ->]. exists (String c pre). reflexivity.
Qed.

End StrFacts.

(** ** The custom agent of the tutorial *)

Section UserProxyAgentFacts.
Import Py IO AgentsTutorial.

Variable CancellationToken : Type.
Variable agent_name : string.
Variable messages : list PyValue.
Variable cancellation_token : CancellationToken.

Let self := UserProxyAgent agent_name.

(** One call on a console that has a line waiting. *)
Lemma on_messages_with_input u pending out :
  on_messages self messages cancellation_token
    {| stdin := u :: pending; stdout := out |}
  = (Returns
       (if Str.contains "TERMINATE" u
        then stop_response "User has terminated the conversation." agent_name
        else text_response u agent_name),
     answered pending out).
Proof.
  unfold on_messages, run_in_executor, input, bind, write, readline, ret.
  cbn [stdin stdout fst snd].
  destruct (Str.contains "TERMINATE" u); reflexivity.
Qed.

(** With nothing left to read the call raises and returns no
    response. *)
Lemma on_messages_at_eof out :
  on_messages self messages cancellation_token
    {| stdin := []; stdout := out |}
  = (Raises EOFError, answered [] out).
Proof. reflexivity. Qed.

Lemma on_messages_stop u pending out :
  Str.occurs "TERMINATE" u ->
  on_messages self messages cancellation_token
    {| stdin := u :: pending; stdout := out |}
  = (Returns
       (stop_response "User has terminated the conversation." agent_name),
     answered pending out).
Proof.
  intros H. rewrite on_messages_with_input.
  apply StrFacts.contains_iff in H. rewrite H. reflexivity.
Qed.

Lemma on_messages_text u pending out :
  ~ Str.occurs "TERMINATE" u ->
  on_messages self messages cancellation_token
    {| stdin := u :: pending; stdout := out |}
  = (Returns (text_response u agent_name), answered pending out).
Proof.
  intros H. rewrite on_messages_with_input.
  apply StrFacts.contains_false_iff in H. rewrite H. reflexivity.
Qed.

End UserProxyAgentFacts.

Import Py IO.

(** C1.  Whatever the prior messages, when the operator's line [u] does
    not contain the substring "TERMINATE", [on_messages] returns a
    [Response] whose [chat_message] is a [TextMessage] with [content]
    equal to [u] verbatim and [source] equal to the agent's configured
    name. *)
Theorem on_messages_echoes_input :
  forall (CancellationToken : Type) (agent_name u : string)
         (messages : list PyValue) (cancellation_token : CancellationToken)
         (pending out : list string),
    ~ Str.occurs "TERMINATE" u ->
    AgentsTutorial.on_messages (AgentsTutorial.UserProxyAgent agent_name)
      messages cancellation_token {| stdin := u :: pending; stdout := out |}
    = (Returns
         (PyObj Response
            [("chat_message",
              PyObj TextMessage
                [("content", PyStr u); ("source", PyStr agent_name)])]),
       AgentsTutorial.answered pending out).
Proof.
  intros T agent_name u messages token pending out H.
  now rewrite on_messages_text.
Qed.

(** The run recorded in the tutorial: the operator typed "Hello there". *)
Lemma on_messages_echoes_input_witness :
  ~ Str.occurs "TERMINATE" "Hello there"
  /\ AgentsTutorial.on_messages AgentsTutorial.user_proxy_agent
       AgentsTutorial.weather_question tt
       {| stdin := ["Hello there"]; stdout := [] |}
     = (Returns
          (PyObj Response
             [("chat_message",
               PyObj TextMessage
                 [("content", PyStr "Hello there");
                  ("source", PyStr "user_proxy_agent")])]),
        {| stdin := []; stdout := ["Enter your response: "] |}).
Proof.
  split.
  - apply StrFacts.contains_false_iff. reflexivity.
  - apply (on_messages_echoes_input unit "user_proxy_agent" "Hello there").
    apply StrFacts.contains_false_iff. reflexivity.
Defined.

(** C2.  Whatever the prior messages, when the operator's line [u]
    contains the substring "TERMINATE", [on_messages] returns a [Response]
    whose [chat_message] is a [StopMessage] with [content] exactly
    "User has terminated the conversation." and [source] equal to the
    agent's configured name. *)
Theorem on_messages_stops_on_marker :
  forall (CancellationToken : Type) (agent_name u : string)
         (messages : list PyValue) (cancellation_token : CancellationToken)
         (pending out : list string),
    Str.occurs "TERMINATE" u ->
    AgentsTutorial.on_messages (AgentsTutorial.UserProxyAgent agent_name)
      messages cancellation_token {| stdin := u :: pending; stdout := out |}
    = (Returns
         (PyObj Response
            [("chat_message",
              PyObj StopMessage
                [("content", PyStr "User has terminated the conversation.");
                 ("source", PyStr agent_name)])]),
       AgentsTutorial.answered pending out).
Proof.
  intros T agent_name u messages token pending out H.
  now rewrite on_messages_stop.
Qed.

Lemma on_messages_stops_on_marker_witness :
  Str.occurs "TERMINATE" "I am done. TERMINATE"
  /\ AgentsTutorial.on_messages AgentsTutorial.user_proxy_agent
       AgentsTutorial.weather_question tt
       {| stdin := ["I am done. TERMINATE"]; stdout := [] |}
     = (Returns
          (PyObj Response
             [("chat_message",
               PyObj StopMessage
                 [("content", PyStr "User has terminated the conversation.");
                  ("source", PyStr "user_proxy_agent")])]),
        {| stdin := []; stdout := ["Enter your response: "] |}).
Proof.
  split.
  - apply StrFacts.contains_iff. reflexivity.
  - apply (on_messages_stops_on_marker unit "user_proxy_agent"
             "I am done. TERMINATE").
    apply StrFacts.contains_iff. reflexivity.
Defined.

(** C5.  Whatever the prior messages and whatever line the operator
    enters, a call of [on_messages] returns one [Response], which wraps
    one chat message: its only attribute is [chat_message], and that is a
    [TextMessage] or a [StopMessage]. *)
Theorem on_messages_returns_one_response :
  forall (CancellationToken : Type) (agent_name u : string)
         (messages : list PyValue) (cancellation_token : CancellationToken)
         (pending out : list string),
  exists message,
    AgentsTutorial.on_messages (AgentsTutorial.UserProxyAgent agent_name)
      messages cancellation_token {| stdin := u :: pending; stdout := out |}
    = (Returns (PyObj Response [("chat_message", message)]),
       AgentsTutorial.answered pending out)
    /\ (type_of message = Some TextMessage
        \/ type_of message = Some StopMessage).
Proof.
  intros T agent_name u messages token pending out.
  rewrite on_messages_with_input.
  destruct (Str.contains "TERMINATE" u);
    eexists; (split; [reflexivity|]); [right | left]; reflexivity.
Qed.

(** C6.  Every chat message the notebooks' code constructs has both a
    [content] and a [source], and both are strings: the message in every
    response of [on_messages], and the messages the cells pass to the
    agents. *)
Theorem messages_have_content_and_source :
  (forall (CancellationToken : Type) (agent_name u : string)
          (messages : list PyValue) (cancellation_token : CancellationToken)
          (pending out : list string),
   exists message,
     AgentsTutorial.on_messages (AgentsTutorial.UserProxyAgent agent_name)
       messages cancellation_token {| stdin := u :: pending; stdout := out |}
     = (Returns (PyObj Response [("chat_message", message)]),
        AgentsTutorial.answered pending out)
     /\ has_content_and_source message = true)
  /\ Forall (fun message => has_content_and_source message = true)
       (AgentsTutorial.weather_question ++ AgentsTutorial.code_question).
Proof.
  split.
  - intros T agent_name u messages token pending out.
    rewrite on_messages_with_input.
    destruct (Str.contains "TERMINATE" u);
      eexists; split; reflexivity.
  - repeat constructor.
Qed.

(** C7.  [on_messages] does not act on its cancellation token: two calls
    with the same prior messages on the same console, whatever the two
    tokens, have the same outcome. *)
Theorem on_messages_ignores_cancellation_token :
  forall (CancellationToken CancellationToken' : Type) (agent_name : string)
         (messages : list PyValue)
         (token1 : CancellationToken) (token2 : CancellationToken')
         (console : Console),
    AgentsTutorial.on_messages (AgentsTutorial.UserProxyAgent agent_name)
      messages token1 console
    = AgentsTutorial.on_messages (AgentsTutorial.UserProxyAgent agent_name)
        messages token2 console.
Proof. reflexivity. Qed.

(** C8.  [on_messages] ignores its [messages] argument: two calls on the
    same console, whatever the two sequences of prior messages, the empty
    one included, have the same outcome. *)
Theorem on_messages_ignores_messages :
  forall (CancellationToken : Type) (agent_name : string)
         (messages1 messages2 : list PyValue)
         (cancellation_token : CancellationToken) (console : Console),
    AgentsTutorial.on_messages (AgentsTutorial.UserProxyAgent agent_name)
      messages1 cancellation_token console
    = AgentsTutorial.on_messages (AgentsTutorial.UserProxyAgent agent_name)
        messages2 cancellation_token console
    /\ AgentsTutorial.on_messages (AgentsTutorial.UserProxyAgent agent_name)
         messages1 cancellation_token console
       = AgentsTutorial.on_messages (AgentsTutorial.UserProxyAgent agent_name)
           [] cancellation_token console.
Proof. split; reflexivity. Qed.

(** C9.  [produced_message_types] is the list [[TextMessage, StopMessage]],
    and the chat message [on_messages] returns is always of one of the
    types in it. *)
Theorem on_messages_produces_declared_types :
  forall (CancellationToken : Type) (agent_name u : string)
         (messages : list PyValue) (cancellation_token : CancellationToken)
         (pending out : list string),
    AgentsTutorial.produced_message_types
      (AgentsTutorial.UserProxyAgent agent_name)
    = [TextMessage; StopMessage]
    /\ exists message cls,
         AgentsTutorial.on_messages (AgentsTutorial.UserProxyAgent agent_name)
           messages cancellation_token
           {| stdin := u :: pending; stdout := out |}
         = (Returns (PyObj Response [("chat_message", message)]),
            AgentsTutorial.answered pending out)
         /\ type_of message = Some cls
         /\ In cls (AgentsTutorial.produced_message_types
                      (AgentsTutorial.UserProxyAgent agent_name)).
Proof.
  intros T agent_name u messages token pending out.
  split; [reflexivity|].
  rewrite on_messages_with_input.
  destruct (Str.contains "TERMINATE" u); do 2 eexists;
    (split; [reflexivity|]); (split; [reflexivity|]); simpl; auto.
Qed.

(** C10.  The marker check is a case-sensitive substring test: a line in
    which "TERMINATE" appears only in another letter case, such as
    "terminate", is echoed as a [TextMessage]; a line in which the upper
    case "TERMINATE" appears anywhere, also inside a longer word, yields
    the [StopMessage]. *)
Theorem marker_check_is_case_sensitive :
  (forall (CancellationToken : Type) (agent_name u : string)
          (messages : list PyValue) (cancellation_token : CancellationToken)
          (pending out : list string),
     Str.contains_ignoring_case "TERMINATE" u = true ->
     ~ Str.occurs "TERMINATE" u ->
     AgentsTutorial.on_messages (AgentsTutorial.UserProxyAgent agent_name)
       messages cancellation_token {| stdin := u :: pending; stdout := out |}
     = (Returns (AgentsTutorial.text_response u agent_name),
        AgentsTutorial.answered pending out))
  /\ (forall (CancellationToken : Type) (agent_name before after : string)
             (messages : list PyValue)
             (cancellation_token : CancellationToken)
             (pending out : list string),
        AgentsTutorial.on_messages (AgentsTutorial.UserProxyAgent agent_name)
          messages cancellation_token
          {| stdin := (before ++ "TERMINATE" ++ after) :: pending;
             stdout := out |}
        = (Returns
             (AgentsTutorial.stop_response
                "User has terminated the conversation." agent_name),
           AgentsTutorial.answered pending out))
  /\ (forall (CancellationToken : Type) (agent_name : string)
             (messages : list PyValue)
             (cancellation_token : CancellationToken)
             (pending out : list string),
        AgentsTutorial.on_messages (AgentsTutorial.UserProxyAgent agent_name)
          messages cancellation_token
          {| stdin := "terminate" :: pending; stdout := out |}
        = (Returns (AgentsTutorial.text_response "terminate" agent_name),
           AgentsTutorial.answered pending out)
        /\ AgentsTutorial.on_messages
             (AgentsTutorial.UserProxyAgent agent_name)
             messages cancellation_token
             {| stdin := "UNTERMINATED" :: pending; stdout := out |}
           = (Returns
                (AgentsTutorial.stop_response
                   "User has terminated the conversation." agent_name),
              AgentsTutorial.answered pending out)).
Proof.
  split; [|split].
  - intros T agent_name u messages token pending out _ H.
    now apply on_messages_text.
  - intros T agent_name before after messages token pending out.
    apply on_messages_stop. now exists before, after.
  - intros T agent_name messages token pending out.
    split; rewrite on_messages_with_input; reflexivity.
Qed.

Lemma marker_check_is_case_sensitive_witness :
  Str.contains_ignoring_case "TERMINATE" "Please Terminate now" = true
  /\ ~ Str.occurs "TERMINATE" "Please Terminate now"
  /\ AgentsTutorial.on_messages AgentsTutorial.user_proxy_agent
       AgentsTutorial.weather_question tt
       {| stdin := ["Please Terminate now"]; stdout := [] |}
     = (Returns
          (AgentsTutorial.text_response "Please Terminate now"
             "user_proxy_agent"),
        {| stdin := []; stdout := ["Enter your response: "] |}).
Proof.
  split; [reflexivity|]. split.
  - apply StrFacts.contains_false_iff. reflexivity.
  - apply (proj1 marker_check_is_case_sensitive unit "user_proxy_agent"
             "Please Terminate now").
    + reflexivity.
    + apply StrFacts.contains_false_iff. reflexivity.
Defined.

(** ** The weather tool *)

Lemma append_assoc (a b c : string) : (a ++ b) ++ c = a ++ b ++ c.
Proof.
  induction a as [|x a IH]; simpl; [reflexivity|].
  now rewrite IH.
Qed.

(** C3.  For every city name [c], [get_weather c] is a string that
    contains [c] and ends with one fixed temperature and condition phrase,
    the same for every city; so it is for the function of the quickstart
    (73 degrees) and for the one of the agents tutorial (72 degrees). *)
Theorem get_weather_names_city_and_phrase :
  forall c : string,
    (Str.contains c (Quickstart.get_weather c) = true
     /\ Str.endswith "73 degrees and Sunny." (Quickstart.get_weather c) = true)
    /\ (Str.contains c (AgentsTutorial.get_weather c) = true
        /\ Str.endswith "72 degrees and Sunny."
             (AgentsTutorial.get_weather c) = true).
Proof.
  intros c. repeat split.
  - apply StrFacts.contains_app.
  - unfold Quickstart.get_weather.
    change " is 73 degrees and Sunny." with (" is " ++ "73 degrees and Sunny.").
    rewrite <- !append_assoc. apply StrFacts.endswith_app.
  - apply StrFacts.contains_app.
  - unfold AgentsTutorial.get_weather.
    change " is 72 degrees and Sunny." with (" is " ++ "72 degrees and Sunny.").
    rewrite <- !append_assoc. apply StrFacts.endswith_app.
Qed.

(** The city of the recorded run. *)
Example get_weather_New_York :
  Quickstart.get_weather "New York"
  = "The weather in New York is 73 degrees and Sunny."
  /\ AgentsTutorial.get_weather "New York"
     = "The weather in New York is 72 degrees and Sunny.".
Proof. split; reflexivity. Qed.

(** ** The team of the quickstart *)

Lemma quickstart_first_round (weather_agent : Quickstart.Agent) (task : string) :
  Quickstart.step (Quickstart.agent_team weather_agent) (Quickstart.start task)
  = Some {| Quickstart.transcript :=
              Quickstart.transcript (Quickstart.start task)
              ++ [Quickstart.respond weather_agent
                    (Quickstart.transcript (Quickstart.start task))];
            Quickstart.turn := 1 |}.
Proof. reflexivity. Qed.

Lemma quickstart_second_round (weather_agent : Quickstart.Agent)
    (first reply : PyValue) (turn : nat) :
  Quickstart.step (Quickstart.agent_team weather_agent)
    {| Quickstart.transcript := [first; reply]; Quickstart.turn := turn |}
  = None.
Proof. reflexivity. Qed.

(** C4.  With one agent in the round-robin team and at most 2 messages,
    running a task gives a transcript of exactly 2 messages, the task text
    with source "user" and then the one reply of the agent, and at no
    point of the run is there a third message. *)
Theorem quickstart_run_has_two_messages :
  forall (weather_agent : Quickstart.Agent) (task : string) (fuel : nat),
    let task_message :=
      PyObj TextMessage [("source", PyStr "user"); ("content", PyStr task)] in
    Quickstart.run (S fuel) (Quickstart.agent_team weather_agent) task
    = Some {| Quickstart.messages :=
                [task_message;
                 Quickstart.respond weather_agent [task_message]] |}
    /\ Forall (fun st => (List.length (Quickstart.transcript st) <= 2)%nat)
         (Quickstart.run_states fuel (Quickstart.agent_team weather_agent)
            (Quickstart.start task)).
Proof.
  intros weather_agent task fuel task_message. split.
  - unfold Quickstart.run. cbn [Quickstart.run_loop].
    rewrite quickstart_first_round.
    destruct fuel; reflexivity.
  - destruct fuel as [|fuel]; cbn [Quickstart.run_states].
    + repeat constructor.
    + rewrite quickstart_first_round. constructor; [simpl; lia|].
      destruct fuel; repeat constructor.
Qed.

(** The run recorded in the quickstart. *)
Example quickstart_recorded_run :
  Quickstart.run 1 (Quickstart.agent_team Quickstart.recorded_weather_agent)
    "What is the weather in New York?"
  = Some {| Quickstart.messages :=
              [PyObj TextMessage
                 [("source", PyStr "user");
                  ("content", PyStr "What is the weather in New York?")];
               PyObj TextMessage
                 [("source", PyStr "weather_agent");
                  ("content",
                   PyStr "The weather in New York is 73 degrees and sunny.")]] |}.
Proof. reflexivity. Qed.


(** * Further properties of the notebooks' code *)

(** ** The custom agent and the console *)



(** The marker is never passed on: whatever line the operator enters, the
    [content] of the message in the response does not contain
    "TERMINATE". *)
Theorem on_messages_content_is_free_of_marker :
  forall (CancellationToken : Type) (agent_name u : string)
         (messages : list PyValue) (cancellation_token : CancellationToken)
         (pending out : list string),
  exists message content,
    AgentsTutorial.on_messages (AgentsTutorial.UserProxyAgent agent_name)
      messages cancellation_token {| stdin := u :: pending; stdout := out |}
    = (Returns (PyObj Response [("chat_message", message)]),
       AgentsTutorial.answered pending out)
    /\ getattr message "content" = Some (PyStr content)
    /\ ~ Str.occurs "TERMINATE" content.
Proof.
  intros T agent_name u messages token pending out.
  rewrite on_messages_with_input.
  destruct (Str.contains "TERMINATE" u) eqn:E; do 2 eexists;
    (split; [reflexivity|]); (split; [reflexivity|]);
    apply StrFacts.contains_false_iff.
  - reflexivity.
  - exact E.
Qed.

Lemma occurs_surrounded (needle u before after : string) :
  Str.occurs needle u -> Str.occurs needle (before ++ u ++ after).
Proof.
  intros (pre & post & ->).
  exists (before ++ pre), (post ++ after).
  now rewrite !append_assoc.
Qed.

(** Text around a line cannot undo the stop: when a line makes
    [on_messages] answer with the [StopMessage], so does every line that
    has it inside, whatever comes before and after it. *)
Theorem on_messages_stop_survives_surrounding_text :
  forall (CancellationToken : Type) (agent_name u before after : string)
         (messages : list PyValue) (cancellation_token : CancellationToken)
         (pending out : list string),
    AgentsTutorial.on_messages (AgentsTutorial.UserProxyAgent agent_name)
      messages cancellation_token {| stdin := u :: pending; stdout := out |}
    = (Returns
         (AgentsTutorial.stop_response
            "User has terminated the conversation." agent_name),
       AgentsTutorial.answered pending out) ->
    AgentsTutorial.on_messages (AgentsTutorial.UserProxyAgent agent_name)
      messages cancellation_token
      {| stdin := (before ++ u ++ after) :: pending; stdout := out |}
    = (Returns
         (AgentsTutorial.stop_response
            "User has terminated the conversation." agent_name),
       AgentsTutorial.answered pending out).
Proof.
  intros T agent_name u before after messages token pending out H.
  rewrite on_messages_with_input in H.
  apply on_messages_stop, occurs_surrounded.
  destruct (Str.contains "TERMINATE" u) eqn:E.
  - now apply StrFacts.contains_iff.
  - discriminate H.
Qed.

Lemma on_messages_stop_survives_surrounding_text_witness :
  AgentsTutorial.on_messages AgentsTutorial.user_proxy_agent
    AgentsTutorial.weather_question tt
    {| stdin := ["TERMINATE"]; stdout := [] |}
  = (Returns
       (AgentsTutorial.stop_response
          "User has terminated the conversation." "user_proxy_agent"),
     AgentsTutorial.answered [] [])
  /\ AgentsTutorial.on_messages AgentsTutorial.user_proxy_agent
       AgentsTutorial.weather_question tt
       {| stdin := ["Do not " ++ "TERMINATE" ++ " yet"]; stdout := [] |}
     = (Returns
          (AgentsTutorial.stop_response
             "User has terminated the conversation." "user_proxy_agent"),
        AgentsTutorial.answered [] []).
Proof.
  split; [reflexivity|].
  apply (on_messages_stop_survives_surrounding_text unit "user_proxy_agent"
           "TERMINATE" "Do not " " yet").
  reflexivity.
Defined.

(** Two calls one after the other answer the first and the second
    waiting line, in that order, each shown the prompt once; with a single
    line waiting the second call raises [EOFError] and no response comes
    back from the pair. *)
Theorem successive_calls_read_successive_lines :
  forall (CancellationToken : Type) (agent_name u1 u2 : string)
         (messages1 messages2 : list PyValue)
         (token1 token2 : CancellationToken)
         (pending out : list string),
    let agent := AgentsTutorial.UserProxyAgent agent_name in
    let reply := fun u =>
      if Str.contains "TERMINATE" u
      then AgentsTutorial.stop_response
             "User has terminated the conversation." agent_name
      else AgentsTutorial.text_response u agent_name in
    let two_calls :=
      (first <- AgentsTutorial.on_messages agent messages1 token1 ;;
       second <- AgentsTutorial.on_messages agent messages2 token2 ;;
       ret (first, second))%io in
    two_calls {| stdin := u1 :: u2 :: pending; stdout := out |}
    = (Returns (reply u1, reply u2),
       {| stdin := pending;
          stdout := out ++ ["Enter your response: ";
                            "Enter your response: "] |})
    /\ two_calls {| stdin := [u1]; stdout := out |}
       = (Raises EOFError,
          {| stdin := [];
             stdout := out ++ ["Enter your response: ";
                               "Enter your response: "] |}).
Proof.
  intros T agent_name u1 u2 messages1 messages2 token1 token2 pending out
         agent reply two_calls.
  subst two_calls agent. unfold bind at 1 3.
  rewrite !on_messages_with_input. unfold bind.
  unfold AgentsTutorial.answered.
  rewrite on_messages_with_input, on_messages_at_eof.
  unfold AgentsTutorial.answered, ret.
  rewrite <- !app_assoc. split; reflexivity.
Qed.

(** ** The weather tool *)

Lemma length_append (a b : string) :
  String.length (a ++ b) = String.length a + String.length b.
Proof.
  induction a as [|x a IH]; simpl; [reflexivity|].
  now rewrite IH.
Qed.

Lemma append_same_length (a : string) : forall b s t : string,
  String.length a = String.length b ->
  a ++ s = b ++ t -> a = b /\ s = t.
Proof.
  induction a as [|x a IH]; intros [|y b] s t Hlen H;
    try discriminate Hlen.
  - split; [reflexivity | exact H].
  - simpl in Hlen, H. injection H as Hxy H. injection Hlen as Hlen.
    destruct (IH b s t Hlen H) as [-> ->]. now subst y.
Qed.

Lemma append_cancel_r (a b s : string) : a ++ s = b ++ s -> a = b.
Proof.
  intros H. apply (append_same_length a b s s); [|exact H].
  apply (f_equal String.length) in H.
  rewrite !length_append in H. lia.
Qed.

(** The answer of [get_weather] determines the city: two cities with the
    same answer are the same city, in the quickstart and in the
    tutorial. *)
Theorem get_weather_determines_city :
  forall c1 c2 : string,
    (Quickstart.get_weather c1 = Quickstart.get_weather c2 -> c1 = c2)
    /\ (AgentsTutorial.get_weather c1 = AgentsTutorial.get_weather c2
        -> c1 = c2).
Proof.
  intros c1 c2. split; intros H.
  - unfold Quickstart.get_weather in H.
    apply (append_same_length "The weather in " "The weather in ") in H;
      [|reflexivity].
    destruct H as [_ H]. now apply append_cancel_r in H.
  - unfold AgentsTutorial.get_weather in H.
    apply (append_same_length "The weather in " "The weather in ") in H;
      [|reflexivity].
    destruct H as [_ H]. now apply append_cancel_r in H.
Qed.

(** The two notebooks' tools never agree: whatever the two cities, the
    answer of the quickstart's [get_weather] (73 degrees) differs from the
    answer of the tutorial's (72 degrees). *)
Theorem get_weather_differs_between_notebooks :
  forall c1 c2 : string,
    Quickstart.get_weather c1 <> AgentsTutorial.get_weather c2.
Proof.
  intros c1 c2 H.
  unfold Quickstart.get_weather, AgentsTutorial.get_weather in H.
  apply (append_same_length "The weather in " "The weather in ") in H;
    [|reflexivity].
  destruct H as [_ H].
  assert (Hlen : String.length c1 = String.length c2).
  { apply (f_equal String.length) in H.
    rewrite !length_append in H. simpl in H. lia. }
  apply (append_same_length c1 c2 _ _ Hlen) in H.
  destruct H as [_ H]. discriminate H.
Qed.

Lemma get_weather_determines_city_witness :
  (Quickstart.get_weather "New York" = Quickstart.get_weather "New York"
   /\ AgentsTutorial.get_weather "New York"
      = AgentsTutorial.get_weather "New York")
  /\ "New York" = "New York".
Proof.
  split; [split; reflexivity|].
  apply (proj1 (get_weather_determines_city "New York" "New York")).
  reflexivity.
Defined.
